(** * Snapshot bundle upload script: model and properties

    Shallow embedding of [.github/ci_support/upload_sonatype_snapshot_bundles.js].

    The script is a sequence of effects on the outside world: it reads
    [process.env], spawns [mktemp], [unzip], [mvn] and [rm], probes and
    writes the file system through Node's [fs] module, prints to the
    console and may throw.  The embedding threads a [world] through a small
    state-and-exception monad; every interaction with the outside world is
    appended to a chronological [trace]. *)

From Stdlib Require Import ZArith Ascii String List.
From stdpp Require Import base option gmap strings list fin_maps pretty.


(** ** JavaScript values, exceptions and the world *)

(** The values a callback can hand back to its caller. *)
Inductive value :=
  | VUndefined
  | VNull
  | VBool (b : bool)
  | VNumber (n : Z)
  | VString (s : string).

(** Thrown objects: a plain [Error] with its message, or the system error
    Node's [fs] throws, with its [code], [syscall] and [path]. *)
Inductive exn :=
  | JsError (message : string)
  | SystemError (code syscall path : string).

(** What lives at a path. *)
Inductive entry :=
  | File (data : string)
  | Dir.

(** Interactions with the outside world, in the order they happen. *)
Inductive event :=
  | EvSpawn (cmd : string) (args : list string)
  | EvLog (line : string)
  | EvWriteFile (path data : string)
  | EvExists (path : string).

#[global] Instance value_eq_dec : EqDecision value.
Proof. solve_decision. Defined.
#[global] Instance exn_eq_dec : EqDecision exn.
Proof. solve_decision. Defined.
#[global] Instance entry_eq_dec : EqDecision entry.
Proof. solve_decision. Defined.
#[global] Instance event_eq_dec : EqDecision event.
Proof. solve_decision. Defined.

(** [env] holds the variables that are set, the own properties of
    [process.env]; [fs] is the file system, a dictionary from paths to
    entries.  [openError] is the system's answer to the exclusive creation
    of a file at a free path: the code of the error it reports, if any
    ([ENOENT] or [ENOTDIR] for a missing parent, [EACCES], [EROFS], ...),
    given the file system and the path. *)
Record world := World {
  env : gmap string string;
  fs : gmap string entry;
  trace : list event;
  openError : gmap string entry → string → option string;
}.

Definition record (e : event) (w : world) : world :=
  {| env := env w; fs := fs w; trace := trace w ++ [e]; openError := openError w |}.

Definition with_fs (f : gmap string entry) (w : world) : world :=
  {| env := env w; fs := f; trace := trace w; openError := openError w |}.

(** What [spawnSync] reports as the output of a child: a buffer, given by
    the string that [String] makes of it, or no buffer at all, [null] or
    [undefined]. *)
Inductive output :=
  | Text (s : string)
  | Null
  | Undefined.

(** The fields of the object [spawnSync] returns that matter here.  [stdout]
    is no buffer when the child could not be spawned or when its output is
    inherited, [status] is [null] when it did not exit by itself. *)
Record spawn_result := SpawnResult {
  status : option Z;
  stdout : output;
}.

(** A child process is opaque: it answers with a [spawn_result] and may
    change the file system in any way. *)
Definition os_model : Type :=
  string → list string → gmap string entry → spawn_result * gmap string entry.

(** ** The monad of JavaScript statements *)

Inductive completion (A : Type) :=
  | Normal (a : A)
  | Throw (e : exn).
Arguments Normal {A} a.
Arguments Throw {A} e.

Definition js (A : Type) : Type := world → completion A * world.

#[global] Instance js_ret : MRet js := λ A a w, (Normal a, w).
#[global] Instance js_bind : MBind js := λ A B k m w,
  match m w with
  | (Normal a, w') => k a w'
  | (Throw e, w') => (Throw e, w')
  end.

Definition throw {A : Type} (e : exn) : js A := λ w, (Throw e, w).

(** [for (const x of xs) { ... }], the loop body updating the local
    variables [s] it closes over. *)
Fixpoint forOf {A S : Type} (xs : list A) (body : A → S → js S) (s : S) : js S :=
  match xs with
  | [] => mret s
  | x :: xs' => s' ← body x s; forOf xs' body s'
  end.

(** ** Strings *)

Definition LF : string := String (ascii_of_nat 10) EmptyString.

(** A string stands for a JavaScript string through its UTF-8 encoding, one
    [ascii] for each byte. *)
Definition bytes (codes : list nat) : string :=
  foldr (λ n s, String (ascii_of_nat n) s) EmptyString codes.

(** The characters [trim] removes, each in its UTF-8 encoding: the white
    space of ECMAScript (TAB, VT, FF, U+FEFF and the space separators SP,
    U+00A0, U+1680, U+2000 to U+200A, U+202F, U+205F, U+3000) and its line
    terminators (LF, CR, U+2028, U+2029). *)
Definition whiteSpace : list string :=
  [ bytes [9]; bytes [10]; bytes [11]; bytes [12]; bytes [13]; bytes [32];
    bytes [194; 160];
    bytes [225; 154; 128];
    bytes [226; 128; 128]; bytes [226; 128; 129]; bytes [226; 128; 130];
    bytes [226; 128; 131]; bytes [226; 128; 132]; bytes [226; 128; 133];
    bytes [226; 128; 134]; bytes [226; 128; 135]; bytes [226; 128; 136];
    bytes [226; 128; 137]; bytes [226; 128; 138];
    bytes [226; 128; 168]; bytes [226; 128; 169]; bytes [226; 128; 175];
    bytes [226; 129; 159];
    bytes [227; 128; 128];
    bytes [239; 187; 191] ].

(** [s] without [pre] at its front, when it starts with [pre]. *)
Fixpoint stripPrefix (pre s : string) : option string :=
  match pre, s with
  | EmptyString, _ => Some s
  | String a pre', String b s' => if Ascii.eqb a b then stripPrefix pre' s' else None
  | String _ _, EmptyString => None
  end.

(** [s] without the first of [patterns] it starts with, if any. *)
Definition dropFirst (patterns : list string) (s : string) : option string :=
  foldr (λ pat otherwise,
           match stripPrefix pat s with
           | Some rest => Some rest
           | None => otherwise
           end)
        None patterns.

(** Drops patterns from the front of [s] as long as there is one, at most
    [fuel] times. *)
Fixpoint dropAll (patterns : list string) (fuel : nat) (s : string) : string :=
  match fuel with
  | O => s
  | S fuel' =>
      match dropFirst patterns s with
      | Some rest => dropAll patterns fuel' rest
      | None => s
      end
  end.

(** [String.prototype.trimStart]: each step removes at least one byte, so
    the length of [s] is fuel enough. *)
Definition trimStart (s : string) : string :=
  dropAll whiteSpace (String.length s) s.

(** [String.prototype.trimEnd], on the reversed string with the reversed
    encodings. *)
Definition trimEnd (s : string) : string :=
  String.rev (dropAll (String.rev <$> whiteSpace) (String.length s) (String.rev s)).

(** [String.prototype.trim]. *)
Definition trim (s : string) : string := trimEnd (trimStart s).

(** [String(x)] at what [spawnSync] reports as output. *)
Definition js_String (x : output) : string :=
  match x with
  | Text s => s
  | Null => "null"
  | Undefined => "undefined"
  end.

(** [Array.prototype.join]. *)
Definition join (sep : string) (xs : list string) : string :=
  String.concat sep xs.

(** Lines 137-139. *)
Definition lines (args : list string) : string := join LF args.

(** ** Platform calls *)

Definition console_log (line : string) : js unit :=
  λ w, (Normal tt, record (EvLog line) w).

(** The string-keyed properties of [Object.prototype], which [process.env]
    inherits. *)
Definition objectPrototypeKeys : list string :=
  [ "constructor"; "__defineGetter__"; "__defineSetter__"; "hasOwnProperty";
    "__lookupGetter__"; "__lookupSetter__"; "isPrototypeOf";
    "propertyIsEnumerable"; "toString"; "valueOf"; "__proto__";
    "toLocaleString" ].

(** What a property of [process.env] evaluates to when it is not
    [undefined]: the value of a variable that is set, or the property of
    that name inherited from [Object.prototype]. *)
Inductive property :=
  | Own (s : string)
  | Inherited (key : string).

(** [process.env[name]]: [None] is [undefined].  A name that is not set is
    looked up in [Object.prototype]. *)
Definition process_env (name : string) : js (option property) :=
  λ w,
    (Normal
       match env w !! name with
       | Some v => Some (Own v)
       | None =>
           if bool_decide (name ∈ objectPrototypeKeys)
           then Some (Inherited name)
           else None
       end,
     w).

(** The string a template literal makes of a property: a string as it is;
    an inherited function by its source text; [Object.prototype] itself, for
    [__proto__], as an object. *)
Definition templateString (x : property) : string :=
  match x with
  | Own s => s
  | Inherited key =>
      if bool_decide (key = "__proto__") then "[object Object]"
      else if bool_decide (key = "constructor") then "function Object() { [native code] }"
      else "function " +:+ key +:+ "() { [native code] }"
  end.

(** [fs.existsSync(path)]. *)
Definition fs_existsSync (path : string) : js bool :=
  λ w, (Normal (bool_decide (is_Some (fs w !! path))), record (EvExists path) w).

(** [fs.writeFileSync(path, data, {flag: 'wx+'})]: the file is opened with
    [O_CREAT | O_EXCL], so the call throws [EEXIST] when anything exists at
    [path]; at a free path it throws the error the system reports, if it
    reports one, and creates the file with [data] otherwise.  The call is
    recorded whether it succeeds or not. *)
Definition fs_writeFileSync_wx (path data : string) : js unit :=
  λ w,
    let w' := record (EvWriteFile path data) w in
    match fs w !! path with
    | Some _ => (Throw (SystemError "EEXIST" "open" path), w')
    | None =>
        match openError w (fs w) path with
        | Some code => (Throw (SystemError code "open" path), w')
        | None => (Normal tt, with_fs (<[path := File data]> (fs w)) w')
        end
    end.

Section Script.

Variable os : os_model.

(** [child_process.spawnSync(cmd, args)]: blocks until the child is done;
    never throws. *)
Definition spawnSync (cmd : string) (args : list string) : js spawn_result :=
  λ w,
    let '(r, f) := os cmd args (fs w) in
    (Normal r, with_fs f (record (EvSpawn cmd args) w)).

(** ** The script *)

(** Lines 145-151. *)
Definition getEnvOrThrow (name : string) : js property :=
  val ← process_env name;
  match val with
  | None => throw (JsError ("Environment variable not set: " +:+ name))
  | Some v => mret v
  end.

(** Lines 122-131.  The function has no [return]: its result is
    [undefined]. *)
Definition withTempDir (callback : string → js value) : js value :=
  r ← spawnSync "mktemp" ["-d"];
  let tmpPath := trim (js_String (stdout r)) in
  console_log ("Created temp directory: " +:+ tmpPath);;
  callback tmpPath;;
  spawnSync "rm" ["-R"; tmpPath];;
  console_log ("Deleted temp directory: " +:+ tmpPath);;
  mret VUndefined.

(** Lines 75-79.  A [Map] iterates in insertion order. *)
Definition JAR_SUFFIX_BY_MVN_ARG : list (string * string) :=
  [ ("-Dfile", "");
    ("-Dsources", "-sources");
    ("-Djavadoc", "-javadoc") ].

(** Lines 96-102: the loop that fills [jarArgs]. *)
Definition collectJarArgs (baseJarPath : string) : js (list string) :=
  forOf JAR_SUFFIX_BY_MVN_ARG
    (λ '(arg, suffix) jarArgs,
       let fullJarPath := baseJarPath +:+ suffix +:+ ".jar" in
       found ← fs_existsSync fullJarPath;
       if found : bool
       then mret (jarArgs ++ [arg +:+ "=" +:+ fullJarPath])
       else mret jarArgs)
    [].

(** Lines 106-114: the argument array of the [mvn] call. *)
Definition mvnArgs (settingsPath tmpPath : string) (jarArgs : list string) : list string :=
  [ "deploy:deploy-file";
    "--settings=" +:+ settingsPath;
    "-DgeneratePom=false";
    "-DrepositoryId=snapshot-repo-id";
    "-Durl=https://oss.sonatype.org/content/repositories/snapshots/";
    "-DpomFile=" +:+ tmpPath +:+ "/pom.xml" ] ++ jarArgs.

(** Lines 89-116: the callback of [mavenDeploySnapshotFromBazel]. *)
Definition deployCallback (settingsPath artifactId tmpPath : string) : js value :=
  spawnSync "unzip" ["bazel-bin/" +:+ artifactId +:+ "_bundle.jar"; "-d"; tmpPath];;
  let baseJarPath := tmpPath +:+ "/" +:+ artifactId +:+ "-1.0-SNAPSHOT" in
  jarArgs ← collectJarArgs baseJarPath;
  spawnSync "mvn" (mvnArgs settingsPath tmpPath jarArgs);;
  mret VUndefined.

(** Lines 85-117. *)
Definition mavenDeploySnapshotFromBazel (settingsPath artifactId : string) : js value :=
  withTempDir (deployCallback settingsPath artifactId);;
  mret VUndefined.

(** Lines 47-59: the settings document, its two placeholders filled in. *)
Definition settingsXml (username password : string) : string :=
  lines
    [ "<settings xmlns='http://maven.apache.org/SETTINGS/1.0.0'";
      "          xmlns:xsi='http://www.w3.org/2001/XMLSchema-instance'";
      "          xsi:schemaLocation='http://maven.apache.org/SETTINGS/1.0.0 http://maven.apache.org/xsd/settings-1.0.0.xsd'>";
      "  <servers>";
      "    <server>";
      "      <id>snapshot-repo-id</id>";
      "      <username>" +:+ username +:+ "</username>";
      "      <password>" +:+ password +:+ "</password>";
      "    </server>";
      "  </servers>";
      "</settings>" ].

(** Lines 46-60 once the template literals are evaluated: the write of the
    settings document. *)
Definition writeSettings (settingsPath username password : string) : js unit :=
  fs_writeFileSync_wx settingsPath (settingsXml username password).

(** Lines 62-68. *)
Definition artifactIds : list string :=
  [ "closure-compiler";
    "closure-compiler-unshaded";
    "closure-compiler-externs";
    "closure-compiler-main";
    "closure-compiler-parent" ].

(** Lines 69-71, for any list of identifiers. *)
Definition deployAll (settingsPath : string) (ids : list string) : js unit :=
  forOf ids (λ id _, mavenDeploySnapshotFromBazel settingsPath id;; mret tt) tt.

(** Lines 44-72: the callback of [main].  The arguments of
    [fs.writeFileSync] are evaluated left to right, so both variables are
    read, user name first, before the call is made. *)
Definition mainCallback (tmpPath : string) : js value :=
  let settingsPath := tmpPath +:+ "/settings.xml" in
  username ← getEnvOrThrow "SONATYPE_USERNAME";
  password ← getEnvOrThrow "SONATYPE_PASSWORD";
  writeSettings settingsPath (templateString username) (templateString password);;
  deployAll settingsPath artifactIds;;
  mret VUndefined.

(** Lines 43-73. *)
Definition main : js value :=
  withTempDir mainCallback;;
  mret VUndefined.

End Script.

(** ** A reference operating system

    A small, executable stand-in for the four tools, used to run the script
    on concrete inputs.  [mktemp -d] creates a directory under a name not yet
    in use and prints it; [rm -R p] removes [p] and everything below it;
    [unzip a -d d] unpacks the members of archive [a], when it is a known
    bundle, into [d]; [mvn] touches nothing.  Exit statuses follow the tools:
    [0] on success. *)
Module Posix.

Definition tmpName (n : nat) : string := "/tmp/tmp." +:+ pretty n.

(** The first of the names [tmpName k], [tmpName (k+1)], ... that is free,
    trying at most [fuel] of them. *)
Fixpoint freshTmp (f : gmap string entry) (fuel k : nat) : string :=
  match fuel with
  | O => tmpName k
  | S fuel' =>
      match f !! tmpName k with
      | None => tmpName k
      | Some _ => freshTmp f fuel' (S k)
      end
  end.

Definition below (dir path : string) : bool :=
  bool_decide (path = dir) || String.prefix (dir +:+ "/") path.

Definition remove (dir : string) (f : gmap string entry) : gmap string entry :=
  filter (λ kv, below dir kv.1 = false) f.

Definition unpack (dest : string) (members : list (string * string))
    (f : gmap string entry) : gmap string entry :=
  foldl (λ acc m, <[dest +:+ "/" +:+ m.1 := File m.2]> acc) f members.

(** [bundles] maps the path of each archive the build produced to its
    members, name and contents. *)
Definition run (bundles : gmap string (list (string * string))) : os_model :=
  λ cmd args f,
    if bool_decide (cmd = "mktemp") then
      let name := freshTmp f (size f) 0 in
      (SpawnResult (Some 0%Z) (Text (name +:+ LF)), <[name := Dir]> f)
    else if bool_decide (cmd = "rm") then
      match args with
      | [_; dir] =>
          match f !! dir with
          | Some _ => (SpawnResult (Some 0%Z) (Text ""), remove dir f)
          | None => (SpawnResult (Some 1%Z) (Text ""), f)
          end
      | _ => (SpawnResult (Some 1%Z) (Text ""), f)
      end
    else if bool_decide (cmd = "unzip") then
      match args with
      | [archive; _; dest] =>
          match bundles !! archive with
          | Some members => (SpawnResult (Some 0%Z) Null, unpack dest members f)
          | None => (SpawnResult (Some 9%Z) Null, f)
          end
      | _ => (SpawnResult (Some 10%Z) Null, f)
      end
    else if bool_decide (cmd = "mvn") then
      (SpawnResult (Some 0%Z) Null, f)
    else
      (SpawnResult None Null, f).

(** A build that produced one bundle, for [closure-compiler], holding the
    POM, the main jar and the sources jar. *)
Definition oneBundle : gmap string (list (string * string)) :=
  {[ "bazel-bin/closure-compiler_bundle.jar" :=
       [ ("pom.xml", "<project/>");
         ("closure-compiler-1.0-SNAPSHOT.jar", "main");
         ("closure-compiler-1.0-SNAPSHOT-sources.jar", "sources") ] ]}.

Definition credentials : gmap string string :=
  {[ "SONATYPE_USERNAME" := "ci-bot"; "SONATYPE_PASSWORD" := "s3cret" ]}.

Definition start (e : gmap string string) : world :=
  {| env := e; fs := ∅; trace := []; openError := λ _ _, None |}.

(** The machine of that build. *)
Definition ci : os_model := run oneBundle.

(** Starting worlds: both credentials set; none; the password alone; the
    user name alone; an empty user name. *)
Definition bothSet : world := start credentials.
Definition noneSet : world := start ∅.
Definition passwordOnly : world := start {[ "SONATYPE_PASSWORD" := "s3cret" ]}.
Definition usernameOnly : world := start {[ "SONATYPE_USERNAME" := "ci-bot" ]}.

(** A machine on which no tool can be started; [absent] is what
    [spawnSync] then reports as output. *)
Definition noTools (absent : output) : os_model :=
  λ _ _ f, (SpawnResult None absent, f).

(** The machine of the build with a [mktemp] that fails: it prints nothing,
    creates nothing and exits with status 1. *)
Definition noTmp : os_model :=
  λ cmd args f,
    if bool_decide (cmd = "mktemp") then (SpawnResult (Some 1%Z) (Text ""), f)
    else ci cmd args f.

(** A world with both credentials in which a file [/settings.xml] is left
    over, and one in which no file can be created. *)
Definition staleSettings : world :=
  {| env := credentials;
     fs := {[ "/settings.xml" := File "stale" ]};
     trace := [];
     openError := λ _ _, None |}.

(** A callback that returns a number. *)
Definition returns42 : string → js value := λ _, mret (VNumber 42).

End Posix.

(** ** Worlds along a run of [withTempDir] *)

Section Run.

Variable os : os_model.

(** The world after [spawnSync(cmd, args)]. *)
Definition spawned (cmd : string) (args : list string) (w : world) : world :=
  with_fs (os cmd args (fs w)).2 (record (EvSpawn cmd args) w).

(** The path [withTempDir] hands to its callback when started in [w]. *)
Definition tmpPathOf (w : world) : string :=
  trim (js_String (stdout (os "mktemp" ["-d"] (fs w)).1)).

(** The world in which the callback starts: [mktemp] has run and the
    first message is printed. *)
Definition created (w : world) : world :=
  record (EvLog ("Created temp directory: " +:+ tmpPathOf w))
    (spawned "mktemp" ["-d"] w).

(** The world after the two statements that follow the callback, started
    in [w]. *)
Definition deleted (tmpPath : string) (w : world) : world :=
  record (EvLog ("Deleted temp directory: " +:+ tmpPath))
    (spawned "rm" ["-R"; tmpPath] w).

(** The world after the three existence probes of the classifier loop. *)
Definition probed (baseJarPath : string) (w : world) : world :=
  foldl (λ acc kv, record (EvExists (baseJarPath +:+ kv.2 +:+ ".jar")) acc)
    w JAR_SUFFIX_BY_MVN_ARG.

(** The world in which the classifier loop of one artifact starts. *)
Definition extracted (artifactId : string) (w : world) : world :=
  spawned "unzip"
    ["bazel-bin/" +:+ artifactId +:+ "_bundle.jar"; "-d"; tmpPathOf w]
    (created w).

(** The tokens the classifier loop of one artifact collects. *)
Definition jarArgsOf (artifactId : string) (w : world) : list string :=
  (λ kv, kv.1 +:+ "=" +:+ kv.2) <$>
    filter (λ kv, is_Some (fs (extracted artifactId w) !! kv.2))
      ((λ kv, (kv.1, (tmpPathOf w +:+ "/" +:+ artifactId +:+ "-1.0-SNAPSHOT")
                       +:+ kv.2 +:+ ".jar")) <$> JAR_SUFFIX_BY_MVN_ARG).

(** The world one call of [mavenDeploySnapshotFromBazel] leaves. *)
Definition deployed (settingsPath artifactId : string) (w : world) : world :=
  let tmpPath := tmpPathOf w in
  deleted tmpPath
    (spawned "mvn" (mvnArgs settingsPath tmpPath (jarArgsOf artifactId w))
       (probed (tmpPath +:+ "/" +:+ artifactId +:+ "-1.0-SNAPSHOT")
          (extracted artifactId w))).

(** The events of one call of [mavenDeploySnapshotFromBazel], in order:
    create, extract, resolve, deploy, clean up. *)
Definition deployEvents (settingsPath artifactId tmpPath : string)
    (jarArgs : list string) : list event :=
  let base := tmpPath +:+ "/" +:+ artifactId +:+ "-1.0-SNAPSHOT" in
  [ EvSpawn "mktemp" ["-d"];
    EvLog ("Created temp directory: " +:+ tmpPath);
    EvSpawn "unzip" ["bazel-bin/" +:+ artifactId +:+ "_bundle.jar"; "-d"; tmpPath];
    EvExists (base +:+ "" +:+ ".jar");
    EvExists (base +:+ "-sources" +:+ ".jar");
    EvExists (base +:+ "-javadoc" +:+ ".jar");
    EvSpawn "mvn" (mvnArgs settingsPath tmpPath jarArgs);
    EvSpawn "rm" ["-R"; tmpPath];
    EvLog ("Deleted temp directory: " +:+ tmpPath) ].

(** The events of the artifact loop started in [w]. *)
Fixpoint loopEvents (settingsPath : string) (ids : list string) (w : world) : list event :=
  match ids with
  | [] => []
  | id :: ids' =>
      deployEvents settingsPath id (tmpPathOf w) (jarArgsOf id w)
        ++ loopEvents settingsPath ids' (deployed settingsPath id w)
  end.

(** For each artifact of the loop started in [w], the directory it is
    extracted to and its classifier tokens. *)
Fixpoint loopSteps (settingsPath : string) (ids : list string) (w : world)
    : list (string * list string) :=
  match ids with
  | [] => []
  | id :: ids' =>
      (tmpPathOf w, jarArgsOf id w)
        :: loopSteps settingsPath ids' (deployed settingsPath id w)
  end.

End Run.

(** Replaces the exit status every child reports, leaving its output and
    its effect on the file system as they are. *)
Definition reporting (st : string → list string → gmap string entry → option Z)
    (os : os_model) : os_model :=
  λ cmd args f,
    let '(r, f') := os cmd args f in
    ({| status := st cmd args f; stdout := stdout r |}, f').

(** ** Classifying events *)

Definition is_write (e : event) : bool :=
  match e with EvWriteFile _ _ => true | _ => false end.

Definition is_probe (e : event) : bool :=
  match e with EvExists _ => true | _ => false end.

Definition is_spawn_of (cmd : string) (e : event) : bool :=
  match e with EvSpawn c _ => bool_decide (c = cmd) | _ => false end.

(** ** The contracts as the specification words them *)

(** The classifier table: main, sources, javadoc, each classifier with the
    argument it maps to. *)
Definition spec_classifierTable : list (string * string) :=
  [ ("", "-Dfile"); ("-sources", "-Dsources"); ("-javadoc", "-Djavadoc") ].

(** Classifier resolution: the (argument, path) pairs, in table order, of
    the classifiers whose file [{artifactId}-1.0-SNAPSHOT{classifier}.jar]
    exists under [extractedDir]. *)
Definition spec_resolveClassifiedFiles (artifactId extractedDir : string)
    (f : gmap string entry) : list (string * string) :=
  let base := artifactId +:+ "-1.0-SNAPSHOT" in
  omap (λ '(classifier, argument),
          let path := extractedDir +:+ "/" +:+ base +:+ classifier +:+ ".jar" in
          if bool_decide (is_Some (f !! path)) then Some (argument, path) else None)
       spec_classifierTable.

(** The token [{argument}={path}] of a resolved entry. *)
Definition spec_token (entry : string * string) : string :=
  entry.1 +:+ "=" +:+ entry.2.

(** The argument list of the deploy command. *)
Definition spec_deployArgs (settingsPath pomPath : string)
    (classifiedFiles : list (string * string)) : list string :=
  [ "deploy:deploy-file";
    "--settings=" +:+ settingsPath;
    "-DgeneratePom=false";
    "-DrepositoryId=snapshot-repo-id";
    "-Durl=https://oss.sonatype.org/content/repositories/snapshots/";
    "-DpomFile=" +:+ pomPath ] ++ (spec_token <$> classifiedFiles).

(** ** The fixed text of the settings document *)

(** Lines 48-54, up to the user name. *)
Definition settingsHead : string :=
  lines
    [ "<settings xmlns='http://maven.apache.org/SETTINGS/1.0.0'";
      "          xmlns:xsi='http://www.w3.org/2001/XMLSchema-instance'";
      "          xsi:schemaLocation='http://maven.apache.org/SETTINGS/1.0.0 http://maven.apache.org/xsd/settings-1.0.0.xsd'>";
      "  <servers>";
      "    <server>";
      "      <id>snapshot-repo-id</id>";
      "      <username>" ].

(** Lines 54-55, between the user name and the password. *)
Definition settingsMid : string :=
  lines [ "</username>"; "      <password>" ].

(** Lines 55-58, after the password. *)
Definition settingsTail : string :=
  lines [ "</password>"; "    </server>"; "  </servers>"; "</settings>" ].

(** The sum of the lengths of the strings of a list. *)
Definition totalLength (xs : list string) : nat :=
  sum_list (String.length <$> xs).

(** Whether the byte [c] occurs in [s], and whether it occurs in [s] after
    the first byte. *)
Fixpoint mentions (c : ascii) (s : string) : bool :=
  match s with
  | EmptyString => false
  | String a s' => Ascii.eqb a c || mentions c s'
  end.

Definition mentionsLater (c : ascii) (s : string) : bool :=
  match s with
  | EmptyString => false
  | String _ s' => mentions c s'
  end.

(** ** Basic facts *)

Lemma string_app_cons (x : ascii) (a b : string) :
  String x a +:+ b = String x (a +:+ b).
Proof. reflexivity. Qed.

Lemma string_app_assoc (a b c : string) : (a +:+ b) +:+ c = a +:+ b +:+ c.
Proof.
  induction a as [|x a IH]; [done|].
  rewrite !string_app_cons. by f_equal.
Qed.

Lemma string_app_length (a b : string) :
  String.length (a +:+ b) = String.length a + String.length b.
Proof.
  induction a as [|x a IH]; [done|].
  rewrite string_app_cons. cbn. by f_equal.
Qed.

Lemma bind_run {A B : Type} (m : js A) (k : A → js B) (w : world) :
  (m ≫= k) w =
    match m w with
    | (Normal a, w') => k a w'
    | (Throw e, w') => (Throw e, w')
    end.
Proof. reflexivity. Qed.

Lemma spawnSync_run os cmd args w :
  spawnSync os cmd args w =
    (Normal (os cmd args (fs w)).1,
     with_fs (os cmd args (fs w)).2 (record (EvSpawn cmd args) w)).
Proof. unfold spawnSync. by destruct (os cmd args (fs w)). Qed.

Lemma spawnSync_spawned os cmd args w :
  spawnSync os cmd args w = (Normal (os cmd args (fs w)).1, spawned os cmd args w).
Proof. apply spawnSync_run. Qed.

(** [withTempDir] in one step: the callback runs in [created]; the two
    closing statements run only when it returns. *)
Lemma withTempDir_run os callback w :
  withTempDir os callback w =
    match callback (tmpPathOf os w) (created os w) with
    | (Normal _, w') => (Normal VUndefined, deleted os (tmpPathOf os w) w')
    | (Throw e, w') => (Throw e, w')
    end.
Proof.
  unfold withTempDir. rewrite bind_run, spawnSync_run. cbn beta iota.
  rewrite bind_run. unfold console_log at 1. cbn beta iota.
  rewrite bind_run. fold (spawned os "mktemp" ["-d"] w).
  fold (tmpPathOf os w). fold (created os w).
  destruct (callback _ _) as [[v|e] w']; [|done].
  rewrite bind_run, spawnSync_run. cbn beta iota.
  rewrite bind_run. reflexivity.
Qed.

(** ** Credential lookup *)

Lemma getEnvOrThrow_run name w :
  getEnvOrThrow name w =
    match env w !! name with
    | Some v => (Normal (Own v), w)
    | None =>
        if bool_decide (name ∈ objectPrototypeKeys)
        then (Normal (Inherited name), w)
        else (Throw (JsError ("Environment variable not set: " +:+ name)), w)
    end.
Proof.
  unfold getEnvOrThrow. rewrite bind_run. unfold process_env.
  destruct (env w !! name); [done|]. by case_bool_decide.
Qed.

(** The lookup at a name that [Object.prototype] does not define. *)
Lemma getEnvOrThrow_plain name w :
  name ∉ objectPrototypeKeys →
  getEnvOrThrow name w =
    match env w !! name with
    | Some v => (Normal (Own v), w)
    | None => (Throw (JsError ("Environment variable not set: " +:+ name)), w)
    end.
Proof.
  intros Hname. rewrite getEnvOrThrow_run.
  destruct (env w !! name); [done|]. by rewrite bool_decide_eq_false_2.
Qed.

Lemma credentials_not_inherited :
  ("SONATYPE_USERNAME" ∉ objectPrototypeKeys)
  ∧ ("SONATYPE_PASSWORD" ∉ objectPrototypeKeys).
Proof.
  split.
  - apply (bool_decide_eq_false_1 ("SONATYPE_USERNAME" ∈ objectPrototypeKeys)).
    reflexivity.
  - apply (bool_decide_eq_false_1 ("SONATYPE_PASSWORD" ∈ objectPrototypeKeys)).
    reflexivity.
Qed.

(** The callback of [main] up to the write of the settings document, when
    both variables are set. *)
Lemma mainCallback_run os tmpPath w u p :
  env w !! "SONATYPE_USERNAME" = Some u →
  env w !! "SONATYPE_PASSWORD" = Some p →
  mainCallback os tmpPath w =
    match writeSettings (tmpPath +:+ "/settings.xml") u p w with
    | (Normal _, w1) =>
        match deployAll os (tmpPath +:+ "/settings.xml") artifactIds w1 with
        | (Normal _, w2) => (Normal VUndefined, w2)
        | (Throw e, w2) => (Throw e, w2)
        end
    | (Throw e, w1) => (Throw e, w1)
    end.
Proof.
  intros Hu Hp. unfold mainCallback.
  rewrite bind_run, getEnvOrThrow_run, Hu.
  rewrite bind_run, getEnvOrThrow_run, Hp.
  rewrite bind_run. cbn [templateString].
  destruct (writeSettings _ _ _ _) as [[[]|e] w1]; [|done].
  rewrite bind_run.
  by destruct (deployAll _ _ _ _) as [[[]|e] w2].
Qed.

(** ** Classifier resolution *)

Lemma collect_loop (base : string) (table : list (string * string))
    (acc : list string) (w : world) :
  forOf table
    (λ '(arg, suffix) jarArgs,
       let fullJarPath := base +:+ suffix +:+ ".jar" in
       found ← fs_existsSync fullJarPath;
       if found : bool
       then mret (jarArgs ++ [arg +:+ "=" +:+ fullJarPath])
       else mret jarArgs)
    acc w =
  (Normal (acc ++ ((λ kv, kv.1 +:+ "=" +:+ kv.2) <$>
             filter (λ kv, is_Some (fs w !! kv.2))
               ((λ kv, (kv.1, base +:+ kv.2 +:+ ".jar")) <$> table))),
   foldl (λ a kv, record (EvExists (base +:+ kv.2 +:+ ".jar")) a) w table).
Proof.
  revert acc w. induction table as [|[arg suffix] table IH]; intros acc w.
  - cbn. by rewrite app_nil_r.
  - cbn [forOf]. rewrite bind_run. cbn beta iota zeta.
    rewrite bind_run. unfold fs_existsSync at 1. cbn beta iota.
    rewrite fmap_cons, filter_cons. cbn [fst snd foldl].
    case_bool_decide as Hex.
    + rewrite decide_True by done.
      unfold mret at 1, js_ret at 1. rewrite IH.
      rewrite fmap_cons, <- app_assoc. reflexivity.
    + rewrite decide_False by done.
      unfold mret at 1, js_ret at 1. rewrite IH. reflexivity.
Qed.

Lemma collectJarArgs_run (base : string) (w : world) :
  collectJarArgs base w =
    (Normal ((λ kv, kv.1 +:+ "=" +:+ kv.2) <$>
               filter (λ kv, is_Some (fs w !! kv.2))
                 ((λ kv, (kv.1, base +:+ kv.2 +:+ ".jar")) <$> JAR_SUFFIX_BY_MVN_ARG)),
     probed base w).
Proof. unfold collectJarArgs. by rewrite collect_loop. Qed.

Lemma fs_probed base w : fs (probed base w) = fs w.
Proof. reflexivity. Qed.

(** ** One artifact, then all of them *)

Lemma deployCallback_run os settingsPath artifactId tmpPath w :
  deployCallback os settingsPath artifactId tmpPath w =
    let base := tmpPath +:+ "/" +:+ artifactId +:+ "-1.0-SNAPSHOT" in
    let w1 :=
      spawned os "unzip"
        ["bazel-bin/" +:+ artifactId +:+ "_bundle.jar"; "-d"; tmpPath] w in
    let jarArgs :=
      (λ kv, kv.1 +:+ "=" +:+ kv.2) <$>
        filter (λ kv, is_Some (fs w1 !! kv.2))
          ((λ kv, (kv.1, base +:+ kv.2 +:+ ".jar")) <$> JAR_SUFFIX_BY_MVN_ARG) in
    (Normal VUndefined,
     spawned os "mvn" (mvnArgs settingsPath tmpPath jarArgs) (probed base w1)).
Proof.
  unfold deployCallback. rewrite bind_run, spawnSync_spawned. cbn beta iota zeta.
  rewrite bind_run, collectJarArgs_run.
  rewrite bind_run, spawnSync_spawned. reflexivity.
Qed.

Lemma mavenDeploySnapshotFromBazel_run os settingsPath artifactId w :
  mavenDeploySnapshotFromBazel os settingsPath artifactId w =
    (Normal VUndefined, deployed os settingsPath artifactId w).
Proof.
  unfold mavenDeploySnapshotFromBazel.
  rewrite bind_run, withTempDir_run, deployCallback_run. reflexivity.
Qed.

Lemma deployAll_run os settingsPath ids w :
  deployAll os settingsPath ids w =
    (Normal tt, foldl (λ a id, deployed os settingsPath id a) w ids).
Proof.
  unfold deployAll. revert w. induction ids as [|id ids IH]; intros w; [done|].
  cbn [forOf foldl]. rewrite bind_run, bind_run, mavenDeploySnapshotFromBazel_run.
  apply IH.
Qed.

Lemma trace_deployed os settingsPath artifactId w :
  trace (deployed os settingsPath artifactId w) =
    trace w ++
      deployEvents settingsPath artifactId (tmpPathOf os w) (jarArgsOf os artifactId w).
Proof.
  unfold deployed, deployEvents, deleted, probed, extracted, created, spawned.
  cbn [trace record with_fs foldl JAR_SUFFIX_BY_MVN_ARG snd].
  by rewrite <- !app_assoc.
Qed.

Lemma env_deployed os settingsPath artifactId w :
  env (deployed os settingsPath artifactId w) = env w.
Proof. reflexivity. Qed.

Lemma trace_loop os settingsPath ids w :
  trace (foldl (λ a id, deployed os settingsPath id a) w ids) =
    trace w ++ loopEvents os settingsPath ids w.
Proof.
  revert w. induction ids as [|id ids IH]; intros w; cbn [foldl loopEvents].
  - by rewrite app_nil_r.
  - by rewrite IH, trace_deployed, <- app_assoc.
Qed.

(** The four ways a run of [main] can go. *)
Lemma main_run os w :
  main os w =
    let tmpPath := tmpPathOf os w in
    let settingsPath := tmpPath +:+ "/settings.xml" in
    match env w !! "SONATYPE_USERNAME" with
    | None =>
        (Throw (JsError ("Environment variable not set: " +:+ "SONATYPE_USERNAME")),
         created os w)
    | Some u =>
        match env w !! "SONATYPE_PASSWORD" with
        | None =>
            (Throw (JsError ("Environment variable not set: " +:+ "SONATYPE_PASSWORD")),
             created os w)
        | Some p =>
            let w1 := record (EvWriteFile settingsPath (settingsXml u p)) (created os w) in
            match fs (created os w) !! settingsPath with
            | Some _ => (Throw (SystemError "EEXIST" "open" settingsPath), w1)
            | None =>
                match openError w (fs (created os w)) settingsPath with
                | Some code => (Throw (SystemError code "open" settingsPath), w1)
                | None =>
                    (Normal VUndefined,
                     deleted os tmpPath
                       (foldl (λ a id, deployed os settingsPath id a)
                          (with_fs (<[settingsPath := File (settingsXml u p)]> (fs (created os w))) w1)
                          artifactIds))
                end
            end
        end
    end.
Proof.
  unfold main. rewrite bind_run, withTempDir_run. cbn zeta.
  destruct (env w !! "SONATYPE_USERNAME") as [u|] eqn:Hu.
  - destruct (env w !! "SONATYPE_PASSWORD") as [p|] eqn:Hp.
    + rewrite (mainCallback_run os _ _ u p) by done.
      unfold writeSettings, fs_writeFileSync_wx.
      destruct (fs (created os w) !! _) as [x|]; [done|].
      change (openError (created os w)) with (openError w).
      destruct (openError w _ _) as [code|]; [done|].
      by rewrite deployAll_run.
    + unfold mainCallback.
      rewrite bind_run, getEnvOrThrow_run.
      change (env (created os w)) with (env w). rewrite Hu.
      rewrite bind_run, (getEnvOrThrow_plain _ _ (proj2 credentials_not_inherited)).
      change (env (created os w)) with (env w). by rewrite Hp.
  - unfold mainCallback.
    rewrite bind_run, (getEnvOrThrow_plain _ _ (proj1 credentials_not_inherited)).
    change (env (created os w)) with (env w). by rewrite Hu.
Qed.




(** ** The settings document *)

(** C4: when anything exists at the target path, the write of the settings
    document throws [EEXIST] and leaves the file system as it was; so a
    second write to the path of a first, successful one throws, and the
    first document stays in place.  In a run of [main] with both
    credentials set, a settings path that is taken makes the run fail with
    that error, the file system left as [mktemp] left it. *)
Theorem writeSettings_creation_conflict path u p w :
  (is_Some (fs w !! path) →
   ∃ w', writeSettings path u p w = (Throw (SystemError "EEXIST" "open" path), w')
         ∧ fs w' = fs w) ∧
  (∀ w1 u' p',
     writeSettings path u p w = (Normal tt, w1) →
     ∃ w2, writeSettings path u' p' w1 = (Throw (SystemError "EEXIST" "open" path), w2)
           ∧ fs w2 = fs w1
           ∧ fs w2 !! path = Some (File (settingsXml u p))) ∧
  (∀ os,
     env w !! "SONATYPE_USERNAME" = Some u →
     env w !! "SONATYPE_PASSWORD" = Some p →
     is_Some (fs (created os w) !! (tmpPathOf os w +:+ "/settings.xml")) →
     (main os w).1 =
       Throw (SystemError "EEXIST" "open" (tmpPathOf os w +:+ "/settings.xml"))
     ∧ fs (main os w).2 = fs (created os w)).
Proof.
  split; [|split].
  - unfold writeSettings, fs_writeFileSync_wx.
    intros [x Hx]. rewrite Hx. eauto.
  - unfold writeSettings, fs_writeFileSync_wx.
    intros w1 u' p' H. destruct (fs w !! path) as [x|] eqn:Hx; [done|].
    destruct (openError w (fs w) path) as [code|]; [done|].
    injection H as <-. cbn [fs with_fs record].
    rewrite lookup_insert_eq. eexists. split; [reflexivity|].
    cbn [fs with_fs record]. by rewrite lookup_insert_eq.
  - intros os Hu Hp [x Hx]. rewrite main_run, Hu, Hp. cbn zeta.
    by rewrite Hx.
Qed.

(** Two writes in a row to one path, on an empty file system. *)
Lemma writeSettings_creation_conflict_witness :
  (∃ w1, writeSettings "/tmp/tmp.0/settings.xml" "ci-bot" "s3cret" Posix.bothSet
           = (Normal tt, w1) ∧
   ∃ w2, writeSettings "/tmp/tmp.0/settings.xml" "ci-bot" "s3cret" w1 =
           (Throw (SystemError "EEXIST" "open" "/tmp/tmp.0/settings.xml"), w2)
         ∧ fs w2 = fs w1
         ∧ fs w2 !! "/tmp/tmp.0/settings.xml"
             = Some (File (settingsXml "ci-bot" "s3cret")))
  ∧ (main Posix.noTmp Posix.staleSettings).1
      = Throw (SystemError "EEXIST" "open" "/settings.xml")
  ∧ fs (main Posix.noTmp Posix.staleSettings).2 !! "/settings.xml"
      = Some (File "stale").
Proof.
  split.
  - eexists. split; [reflexivity|].
    apply (proj1 (proj2 (writeSettings_creation_conflict
                           "/tmp/tmp.0/settings.xml" "ci-bot" "s3cret" Posix.bothSet))).
    reflexivity.
  - destruct (proj2 (proj2 (writeSettings_creation_conflict
                              "/settings.xml" "ci-bot" "s3cret" Posix.staleSettings))
                Posix.noTmp) as [Hthrow Hfs].
    + vm_compute. reflexivity.
    + vm_compute. reflexivity.
    + vm_compute. eauto.
    + split; [exact Hthrow|]. rewrite Hfs. vm_compute. reflexivity.
Defined.

(** ** Classifier resolution against its contract *)

Lemma jar_path (tmpPath artifactId suffix : string) :
  (tmpPath +:+ "/" +:+ artifactId +:+ "-1.0-SNAPSHOT") +:+ suffix +:+ ".jar" =
  tmpPath +:+ "/" +:+ (artifactId +:+ "-1.0-SNAPSHOT") +:+ suffix +:+ ".jar".
Proof. by rewrite !string_app_assoc. Qed.

Lemma tokens_spec (artifactId tmpPath : string) (f : gmap string entry) :
  (λ kv : string * string, kv.1 +:+ "=" +:+ kv.2) <$>
    filter (λ kv, is_Some (f !! kv.2))
      ((λ kv : string * string,
          (kv.1, (tmpPath +:+ "/" +:+ artifactId +:+ "-1.0-SNAPSHOT")
                   +:+ kv.2 +:+ ".jar")) <$> JAR_SUFFIX_BY_MVN_ARG) =
  spec_token <$> spec_resolveClassifiedFiles artifactId tmpPath f.
Proof.
  unfold spec_resolveClassifiedFiles, spec_classifierTable, JAR_SUFFIX_BY_MVN_ARG.
  cbn [fmap list_fmap omap list_omap fst snd].
  rewrite !jar_path, !filter_cons, filter_nil. cbn [fst snd].
  repeat case_decide; repeat case_bool_decide; done.
Qed.

(** C3: classifier resolution returns, as [{argument}={path}] tokens, the
    pairs of the contract: for main, sources and javadoc in this order,
    the argument and the path of each file
    [{artifactId}-1.0-SNAPSHOT{classifier}.jar] that exists in the
    directory.  It always returns, and leaves the file system as it is;
    with no file there the result is empty, with all three it has the
    three tokens in table order. *)
Theorem collectJarArgs_resolves artifactId tmpPath w :
  let base := tmpPath +:+ "/" +:+ artifactId +:+ "-1.0-SNAPSHOT" in
  collectJarArgs base w =
    (Normal (spec_token <$> spec_resolveClassifiedFiles artifactId tmpPath (fs w)),
     probed base w)
  ∧ fs (probed base w) = fs w
  ∧ spec_resolveClassifiedFiles artifactId tmpPath ∅ = []
  ∧ ∀ x y z,
      spec_resolveClassifiedFiles artifactId tmpPath
        {[ tmpPath +:+ "/" +:+ (artifactId +:+ "-1.0-SNAPSHOT") +:+ "" +:+ ".jar" := x;
           tmpPath +:+ "/" +:+ (artifactId +:+ "-1.0-SNAPSHOT") +:+ "-sources" +:+ ".jar" := y;
           tmpPath +:+ "/" +:+ (artifactId +:+ "-1.0-SNAPSHOT") +:+ "-javadoc" +:+ ".jar" := z ]}
      = [ ("-Dfile",
           tmpPath +:+ "/" +:+ (artifactId +:+ "-1.0-SNAPSHOT") +:+ "" +:+ ".jar");
          ("-Dsources",
           tmpPath +:+ "/" +:+ (artifactId +:+ "-1.0-SNAPSHOT") +:+ "-sources" +:+ ".jar");
          ("-Djavadoc",
           tmpPath +:+ "/" +:+ (artifactId +:+ "-1.0-SNAPSHOT") +:+ "-javadoc" +:+ ".jar") ].
Proof.
  intros base. split; [|split; [|split]].
  - unfold base. by rewrite collectJarArgs_run, tokens_spec.
  - reflexivity.
  - unfold spec_resolveClassifiedFiles, spec_classifierTable.
    cbn [omap list_omap]. by rewrite !lookup_empty.
  - intros x y z. unfold spec_resolveClassifiedFiles, spec_classifierTable.
    cbn [omap list_omap].
    rewrite !bool_decide_eq_true_2; [done|..];
      rewrite ?lookup_insert, ?lookup_singleton;
      repeat case_decide; eauto; congruence.
Qed.

(** ** The deploy command *)

Lemma jarArgsOf_spec os artifactId w :
  jarArgsOf os artifactId w =
    spec_token <$>
      spec_resolveClassifiedFiles artifactId (tmpPathOf os w)
        (fs (extracted os artifactId w)).
Proof. unfold jarArgsOf. apply tokens_spec. Qed.

Lemma spec_resolveClassifiedFiles_length artifactId dir f :
  length (spec_resolveClassifiedFiles artifactId dir f) ≤ 3.
Proof.
  unfold spec_resolveClassifiedFiles, spec_classifierTable.
  cbn [omap list_omap]. repeat case_bool_decide; cbn; lia.
Qed.

(** C5: the argument list of the deploy command is, for every settings
    path, directory and list of resolved entries, the list of the contract:
    the operation token, the settings flag, the three fixed flags, the POM
    flag, then one token per entry.  A call for one artifact spawns [mvn]
    once, with this list at the entries resolved after extraction, at most
    three of them. *)
Theorem deploy_command_arguments os settingsPath artifactId w :
  (∀ tmpPath classified,
     mvnArgs settingsPath tmpPath (spec_token <$> classified) =
       [ "deploy:deploy-file";
         "--settings=" +:+ settingsPath;
         "-DgeneratePom=false";
         "-DrepositoryId=snapshot-repo-id";
         "-Durl=https://oss.sonatype.org/content/repositories/snapshots/";
         "-DpomFile=" +:+ tmpPath +:+ "/pom.xml" ]
       ++ ((λ entry, entry.1 +:+ "=" +:+ entry.2) <$> classified)) ∧
  let tmpPath := tmpPathOf os w in
  let classified :=
    spec_resolveClassifiedFiles artifactId tmpPath (fs (extracted os artifactId w)) in
  ∃ pre post,
    trace (mavenDeploySnapshotFromBazel os settingsPath artifactId w).2 =
      trace w ++ pre
        ++ [EvSpawn "mvn" (spec_deployArgs settingsPath (tmpPath +:+ "/pom.xml") classified)]
        ++ post
    ∧ Forall (λ e, is_spawn_of "mvn" e = false) (pre ++ post)
    ∧ length classified ≤ 3.
Proof.
  split; [reflexivity|]. intros tmpPath classified.
  rewrite mavenDeploySnapshotFromBazel_run. cbn [snd].
  rewrite trace_deployed, jarArgsOf_spec. fold tmpPath. fold classified.
  unfold deployEvents.
  eexists [_; _; _; _; _; _], [_; _]. split; [reflexivity|]. split.
  - repeat constructor.
  - apply spec_resolveClassifiedFiles_length.
Qed.

Lemma pom_is_no_jar (tmpPath artifactId suffix : string) :
  tmpPath +:+ "/pom.xml" ≠
  (tmpPath +:+ "/" +:+ artifactId +:+ "-1.0-SNAPSHOT") +:+ suffix +:+ ".jar".
Proof.
  rewrite !string_app_assoc. intros H.
  apply (inj (String.app tmpPath)) in H.
  apply (f_equal String.length) in H.
  rewrite !string_app_length in H. cbn in H. lia.
Qed.

(** C10: the argument list of [mvn] always has the token
    [-DpomFile={tmpPath}/pom.xml], in sixth place, whatever the extraction
    directory holds; the only paths whose existence the call asks for are
    those of the three classifier jars. *)
Theorem pom_token_unconditional os settingsPath artifactId w :
  let tmpPath := tmpPathOf os w in
  let base := tmpPath +:+ "/" +:+ artifactId +:+ "-1.0-SNAPSHOT" in
  ∃ evs args,
    trace (mavenDeploySnapshotFromBazel os settingsPath artifactId w).2 = trace w ++ evs
    ∧ filter (λ e, is_spawn_of "mvn" e) evs = [EvSpawn "mvn" args]
    ∧ args !! 5 = Some ("-DpomFile=" +:+ tmpPath +:+ "/pom.xml")
    ∧ filter (λ e, is_probe e) evs =
        [ EvExists (base +:+ "" +:+ ".jar");
          EvExists (base +:+ "-sources" +:+ ".jar");
          EvExists (base +:+ "-javadoc" +:+ ".jar") ]
    ∧ EvExists (tmpPath +:+ "/pom.xml") ∉ evs.
Proof.
  intros tmpPath base.
  rewrite mavenDeploySnapshotFromBazel_run. cbn [snd]. rewrite trace_deployed.
  fold tmpPath. eexists _, _. split; [reflexivity|].
  unfold deployEvents. fold base. repeat split.
  - intros Hin. rewrite !elem_of_cons in Hin. rewrite elem_of_nil in Hin.
    destruct Hin as [H|[H|[H|[H|[H|[H|[H|[H|[H|[]]]]]]]]]]; try discriminate H;
      injection H as H; by apply pom_is_no_jar in H.
Qed.

(** ** The artifact loop *)

Lemma loopSteps_length os settingsPath ids w :
  length (loopSteps os settingsPath ids w) = length ids.
Proof.
  revert w. induction ids as [|id ids IH]; intros w; cbn; [done|].
  by rewrite IH.
Qed.

Lemma loopEvents_steps os settingsPath ids w :
  loopEvents os settingsPath ids w =
    concat (zip_with (λ id step, deployEvents settingsPath id step.1 step.2)
              ids (loopSteps os settingsPath ids w)).
Proof.
  revert w. induction ids as [|id ids IH]; intros w; [done|].
  cbn [loopEvents loopSteps zip_with concat fst snd]. by rewrite IH.
Qed.

Lemma deployEvents_one_mvn settingsPath id tmpPath jarArgs :
  filter (λ e, is_spawn_of "mvn" e) (deployEvents settingsPath id tmpPath jarArgs) =
    [EvSpawn "mvn" (mvnArgs settingsPath tmpPath jarArgs)].
Proof. reflexivity. Qed.

Lemma blocks_mvn_count settingsPath (ids : list string) (steps : list (string * list string)) :
  length steps = length ids →
  length (filter (λ e, is_spawn_of "mvn" e)
            (concat (zip_with (λ id step, deployEvents settingsPath id step.1 step.2)
                       ids steps))) = length ids.
Proof.
  revert steps. induction ids as [|id ids IH]; intros [|step steps] Hlen;
    try discriminate Hlen; [done|].
  cbn [zip_with concat]. rewrite filter_app, length_app, deployEvents_one_mvn.
  cbn [length]. rewrite IH; [done|]. by injection Hlen.
Qed.

Lemma blocks_unzip_count settingsPath (ids : list string) (steps : list (string * list string)) :
  length steps = length ids →
  length (filter (λ e, is_spawn_of "unzip" e)
            (concat (zip_with (λ id step, deployEvents settingsPath id step.1 step.2)
                       ids steps))) = length ids.
Proof.
  revert steps. induction ids as [|id ids IH]; intros [|step steps] Hlen;
    try discriminate Hlen; [done|].
  cbn [zip_with concat]. rewrite filter_app, length_app.
  change (length (filter (λ e, is_spawn_of "unzip" e)
                    (deployEvents settingsPath id step.1 step.2))) with 1.
  rewrite IH; [done|]. by injection Hlen.
Qed.

(** C6: the list has five identifiers, and a run of [main] that returns
    has made, after the settings document is written, one block of events
    per identifier, in list order and one after the other: create the
    directory, extract the bundle of that identifier, resolve, deploy,
    clean up.  So [mvn] has been spawned once per identifier. *)
Theorem main_deploys_each_artifact_in_order os w v w' :
  main os w = (Normal v, w') →
  length artifactIds = 5 ∧
  ∃ (doc : string) (steps : list (string * list string)) (evs : list event),
    let tmpPath := tmpPathOf os w in
    let settingsPath := tmpPath +:+ "/settings.xml" in
    length steps = length artifactIds
    ∧ trace w' = trace w ++ evs
    ∧ evs =
        [ EvSpawn "mktemp" ["-d"];
          EvLog ("Created temp directory: " +:+ tmpPath);
          EvWriteFile settingsPath doc ]
        ++ concat (zip_with (λ id step, deployEvents settingsPath id step.1 step.2)
                     artifactIds steps)
        ++ [ EvSpawn "rm" ["-R"; tmpPath];
             EvLog ("Deleted temp directory: " +:+ tmpPath) ]
    ∧ length (filter (λ e, is_spawn_of "mvn" e) evs) = length artifactIds.
Proof.
  intros Hrun. split; [reflexivity|].
  rewrite main_run in Hrun. cbn zeta in Hrun.
  destruct (env w !! "SONATYPE_USERNAME") as [u|]; [|discriminate Hrun].
  destruct (env w !! "SONATYPE_PASSWORD") as [p|]; [|discriminate Hrun].
  destruct (fs (created os w) !! _) as [x|]; [discriminate Hrun|].
  destruct (openError w _ _) as [code|]; [discriminate Hrun|].
  apply (f_equal snd) in Hrun. cbn [snd] in Hrun. subst w'.
  eexists (settingsXml u p), (loopSteps os _ artifactIds _), _.
  cbn zeta. split; [apply loopSteps_length|].
  split; [|split; [reflexivity|]].
  - unfold deleted, spawned. cbn [trace record with_fs]. rewrite trace_loop.
    cbn [trace record with_fs]. unfold created, spawned.
    cbn [trace record with_fs]. rewrite loopEvents_steps.
    rewrite <- !app_assoc. reflexivity.
  - rewrite !filter_app, !length_app.
    rewrite blocks_mvn_count by apply loopSteps_length. reflexivity.
Qed.

(** A full run on the reference system. *)
Lemma main_deploys_each_artifact_in_order_witness :
  ∃ evs, trace (main Posix.ci Posix.bothSet).2 = trace Posix.bothSet ++ evs ∧
         length (filter (λ e, is_spawn_of "mvn" e) evs) = 5.
Proof.
  set (os := Posix.ci). set (w := Posix.bothSet).
  destruct (main_deploys_each_artifact_in_order os w VUndefined (main os w).2)
    as (_ & doc & steps & evs & _ & Htrace & _ & Hcount).
  - vm_compute. reflexivity.
  - exists evs. split; [exact Htrace | exact Hcount].
Defined.

(** ** Exit statuses *)

Section Agree.

Variables os1 os2 : os_model.

(** The two systems print the same and change the file system alike; the
    exit statuses they report may differ. *)
Hypothesis agree : ∀ cmd args f,
  stdout (os1 cmd args f).1 = stdout (os2 cmd args f).1
  ∧ (os1 cmd args f).2 = (os2 cmd args f).2.

Lemma spawned_agree cmd args w : spawned os1 cmd args w = spawned os2 cmd args w.
Proof. unfold spawned. by rewrite (proj2 (agree cmd args (fs w))). Qed.

Lemma tmpPathOf_agree w : tmpPathOf os1 w = tmpPathOf os2 w.
Proof. unfold tmpPathOf. by rewrite (proj1 (agree "mktemp" ["-d"] (fs w))). Qed.

Lemma created_agree w : created os1 w = created os2 w.
Proof. unfold created. by rewrite spawned_agree, tmpPathOf_agree. Qed.

Lemma deleted_agree tmpPath w : deleted os1 tmpPath w = deleted os2 tmpPath w.
Proof. unfold deleted. by rewrite spawned_agree. Qed.

Lemma deployed_agree settingsPath artifactId w :
  deployed os1 settingsPath artifactId w = deployed os2 settingsPath artifactId w.
Proof.
  unfold deployed, jarArgsOf, extracted.
  by rewrite !tmpPathOf_agree, !created_agree, !spawned_agree, deleted_agree.
Qed.

Lemma loop_agree settingsPath ids w :
  foldl (λ a id, deployed os1 settingsPath id a) w ids =
  foldl (λ a id, deployed os2 settingsPath id a) w ids.
Proof.
  revert w. induction ids as [|id ids IH]; intros w; [done|].
  cbn [foldl]. by rewrite deployed_agree, IH.
Qed.

Lemma main_agree w : main os1 w = main os2 w.
Proof.
  rewrite !main_run. cbn zeta.
  rewrite !tmpPathOf_agree, !created_agree.
  destruct (env w !! "SONATYPE_USERNAME") as [u|]; [|done].
  destruct (env w !! "SONATYPE_PASSWORD") as [p|]; [|done].
  destruct (fs (created os2 w) !! _) as [x|]; [done|].
  destruct (openError w _ _) as [code|]; [done|].
  by rewrite loop_agree, deleted_agree.
Qed.

End Agree.

Lemma reporting_agree st os cmd args f :
  stdout (reporting st os cmd args f).1 = stdout (os cmd args f).1
  ∧ (reporting st os cmd args f).2 = (os cmd args f).2.
Proof. unfold reporting. by destruct (os cmd args f). Qed.

(** C7: let every child report the exit status [st] chooses, a failure of
    [unzip] or [mvn] included.  A call for one artifact still returns
    normally, with [mvn] spawned after [unzip]; the loop still returns
    normally for every list of identifiers, having made one block of
    events per identifier, in list order, with [mvn] spawned once in each;
    and the call, the loop and the whole run go exactly as they go under
    any other statuses, zero included. *)
Theorem subprocess_status_ignored os st settingsPath artifactId w :
  let failing := reporting st os in
  (∀ cmd args f, status (failing cmd args f).1 = st cmd args f)
  ∧ (mavenDeploySnapshotFromBazel failing settingsPath artifactId w).1 = Normal VUndefined
  ∧ (∃ evs unzipArgs mvnArguments,
      trace (mavenDeploySnapshotFromBazel failing settingsPath artifactId w).2
        = trace w ++ evs
      ∧ filter (λ e, is_spawn_of "unzip" e || is_spawn_of "mvn" e) evs =
          [EvSpawn "unzip" unzipArgs; EvSpawn "mvn" mvnArguments])
  ∧ (∀ ids,
      (deployAll failing settingsPath ids w).1 = Normal tt
      ∧ ∃ (steps : list (string * list string)) (evs : list event),
          length steps = length ids
          ∧ trace (deployAll failing settingsPath ids w).2 = trace w ++ evs
          ∧ evs = concat (zip_with
                            (λ id step, deployEvents settingsPath id step.1 step.2)
                            ids steps)
          ∧ length (filter (λ e, is_spawn_of "mvn" e) evs) = length ids)
  ∧ mavenDeploySnapshotFromBazel failing settingsPath artifactId w =
      mavenDeploySnapshotFromBazel os settingsPath artifactId w
  ∧ (∀ ids, deployAll failing settingsPath ids w = deployAll os settingsPath ids w)
  ∧ main failing w = main os w
  ∧ (∀ u p,
       env w !! "SONATYPE_USERNAME" = Some u →
       env w !! "SONATYPE_PASSWORD" = Some p →
       fs (created failing w) !! (tmpPathOf failing w +:+ "/settings.xml") = None →
       openError w (fs (created failing w)) (tmpPathOf failing w +:+ "/settings.xml")
         = None →
       (main failing w).1 = Normal VUndefined
       ∧ ∃ evs,
           trace (main failing w).2 = trace w ++ evs
           ∧ length (filter (λ e, is_spawn_of "unzip" e) evs) = length artifactIds
           ∧ length (filter (λ e, is_spawn_of "mvn" e) evs) = length artifactIds).
Proof.
  intros failing. split; [|split; [|split; [|split; [|split; [|split; [|split]]]]]].
  - intros cmd args f. unfold failing, reporting. by destruct (os cmd args f).
  - by rewrite mavenDeploySnapshotFromBazel_run.
  - rewrite mavenDeploySnapshotFromBazel_run. cbn [snd]. rewrite trace_deployed.
    eexists _, _, _. split; reflexivity.
  - intros ids. rewrite deployAll_run. cbn [fst snd]. split; [done|].
    exists (loopSteps failing settingsPath ids w). eexists.
    split; [apply loopSteps_length|]. split; [apply trace_loop|].
    split; [apply loopEvents_steps|].
    rewrite loopEvents_steps. apply blocks_mvn_count, loopSteps_length.
  - rewrite !mavenDeploySnapshotFromBazel_run.
    by rewrite (deployed_agree _ os (reporting_agree st os)).
  - intros ids. rewrite !deployAll_run.
    by rewrite (loop_agree _ os (reporting_agree st os)).
  - apply main_agree, reporting_agree.
  - intros u p Hu Hp Hfree Hok. rewrite main_run, Hu, Hp. cbn zeta.
    rewrite Hfree, Hok. split; [done|]. cbn [snd].
    unfold deleted, spawned. cbn [trace record with_fs]. rewrite trace_loop.
    cbn [trace record with_fs]. unfold created, spawned.
    cbn [trace record with_fs]. rewrite loopEvents_steps, <- !app_assoc.
    eexists. split; [reflexivity|].
    rewrite !filter_app, !length_app.
    rewrite blocks_unzip_count, blocks_mvn_count by apply loopSteps_length.
    split; reflexivity.
Qed.

(** A full run on the reference system with every child reporting status
    1. *)
Lemma subprocess_status_ignored_witness :
  (main (reporting (λ _ _ _, Some 1%Z) Posix.ci) Posix.bothSet).1 = Normal VUndefined
  ∧ ∃ evs,
      trace (main (reporting (λ _ _ _, Some 1%Z) Posix.ci) Posix.bothSet).2
        = trace Posix.bothSet ++ evs
      ∧ length (filter (λ e, is_spawn_of "mvn" e) evs) = 5.
Proof.
  destruct (subprocess_status_ignored Posix.ci (λ _ _ _, Some 1%Z)
              "/tmp/tmp.0/settings.xml" "closure-compiler" Posix.bothSet)
    as (_ & _ & _ & _ & _ & _ & _ & Hrun).
  destruct (Hrun "ci-bot" "s3cret") as (Hret & evs & Htrace & _ & Hmvn).
  - vm_compute. reflexivity.
  - vm_compute. reflexivity.
  - vm_compute. reflexivity.
  - vm_compute. reflexivity.
  - split; [exact Hret|]. exists evs. split; [exact Htrace | exact Hmvn].
Defined.

(** ** The result of [withTempDir] *)

(** C8, as amended: [withTempDir] returns [undefined] whenever its callback
    returns, whatever value the callback produced; when the callback
    throws, [withTempDir] throws the same object. *)
Theorem withTempDir_result os callback w :
  (withTempDir os callback w).1 =
    match (callback (tmpPathOf os w) (created os w)).1 with
    | Normal _ => Normal VUndefined
    | Throw e => Throw e
    end.
Proof.
  rewrite withTempDir_run. by destruct (callback _ _) as [[v|e] w'].
Qed.

(** C8 as stated fails: a callback that returns [42] is run, and
    [withTempDir] returns [undefined]. *)
Lemma withTempDir_result_counterexample :
  (Posix.returns42 (tmpPathOf Posix.ci Posix.noneSet)
     (created Posix.ci Posix.noneSet)).1 = Normal (VNumber 42)
  ∧ (withTempDir Posix.ci Posix.returns42 Posix.noneSet).1 = Normal VUndefined
  ∧ (withTempDir Posix.ci Posix.returns42 Posix.noneSet).1
      ≠ (Posix.returns42 (tmpPathOf Posix.ci Posix.noneSet)
           (created Posix.ci Posix.noneSet)).1.
Proof. split; [|split]; [reflexivity | reflexivity | discriminate]. Qed.

(** ** Cleanup *)

(** When the callback throws, the two closing statements of [withTempDir]
    are not run: the world is the one the callback left. *)
Lemma withTempDir_throw os callback w e w' :
  callback (tmpPathOf os w) (created os w) = (Throw e, w') →
  withTempDir os callback w = (Throw e, w').
Proof. intros H. by rewrite withTempDir_run, H. Qed.

(** When the callback returns, [rm -R] is spawned on the directory. *)
Lemma withTempDir_return os callback w v w' :
  callback (tmpPathOf os w) (created os w) = (Normal v, w') →
  withTempDir os callback w = (Normal VUndefined, deleted os (tmpPathOf os w) w').
Proof. intros H. by rewrite withTempDir_run, H. Qed.

(** C2 at a failing run: without [SONATYPE_USERNAME] the callback of
    [main] throws; the directory [mktemp] created is still there when the
    run ends, and [rm] was never spawned. *)
Theorem withTempDir_leaks_on_throw :
  (main Posix.ci Posix.passwordOnly).1
    = Throw (JsError "Environment variable not set: SONATYPE_USERNAME")
  ∧ tmpPathOf Posix.ci Posix.passwordOnly = "/tmp/tmp.0"
  ∧ fs Posix.passwordOnly !! "/tmp/tmp.0" = None
  ∧ fs (main Posix.ci Posix.passwordOnly).2 !! "/tmp/tmp.0" = Some Dir
  ∧ filter (λ e, is_spawn_of "rm" e) (trace (main Posix.ci Posix.passwordOnly).2) = [].
Proof. repeat split; vm_compute; reflexivity. Qed.

(** ** Missing credentials *)

(** C1, as amended: when a credential variable is absent, [main] throws
    the error that names the first absent one, user name before password.
    By then [mktemp -d] has been spawned, first of all; no file has been
    written and neither [unzip] nor [mvn] has been spawned. *)
Theorem main_missing_credential os w :
  env w !! "SONATYPE_USERNAME" = None ∨ env w !! "SONATYPE_PASSWORD" = None →
  let name :=
    match env w !! "SONATYPE_USERNAME" with
    | None => "SONATYPE_USERNAME"
    | Some _ => "SONATYPE_PASSWORD"
    end in
  env w !! name = None
  ∧ (main os w).1 = Throw (JsError ("Environment variable not set: " +:+ name))
  ∧ ∃ evs,
      trace (main os w).2 = trace w ++ EvSpawn "mktemp" ["-d"] :: evs
      ∧ Forall (λ e, is_write e = false
                     ∧ is_spawn_of "unzip" e = false
                     ∧ is_spawn_of "mvn" e = false) evs.
Proof.
  intros Hmiss. rewrite main_run. cbn zeta.
  destruct (env w !! "SONATYPE_USERNAME") as [u|] eqn:Hu.
  - destruct Hmiss as [Hmiss|Hp]; [discriminate Hmiss|].
    rewrite Hp. split; [done|]. split; [done|].
    eexists [_]. split.
    + unfold created, spawned. cbn [snd trace record with_fs].
      by rewrite <- app_assoc.
    + by repeat constructor.
  - split; [done|]. split; [done|].
    eexists [_]. split.
    + unfold created, spawned. cbn [snd trace record with_fs].
      by rewrite <- app_assoc.
    + by repeat constructor.
Qed.

(** A run with the password alone missing. *)
Lemma main_missing_credential_witness :
  (env Posix.usernameOnly !! "SONATYPE_USERNAME" = None
   ∨ env Posix.usernameOnly !! "SONATYPE_PASSWORD" = None)
  ∧ (main Posix.ci Posix.usernameOnly).1 =
      Throw (JsError "Environment variable not set: SONATYPE_PASSWORD").
Proof.
  set (os := Posix.ci). set (w := Posix.usernameOnly).
  assert (H : env w !! "SONATYPE_USERNAME" = None ∨ env w !! "SONATYPE_PASSWORD" = None)
    by (right; vm_compute; reflexivity).
  split; [exact H|].
  exact (proj1 (proj2 (main_missing_credential os w H))).
Defined.

(** C1 as stated fails: with no credential set, the run fails only after
    [mktemp -d] has been spawned and has created a directory. *)
Lemma main_missing_credential_counterexample :
  env Posix.noneSet !! "SONATYPE_USERNAME" = None
  ∧ (main Posix.ci Posix.noneSet).1
      = Throw (JsError "Environment variable not set: SONATYPE_USERNAME")
  ∧ trace (main Posix.ci Posix.noneSet).2 =
      [EvSpawn "mktemp" ["-d"]; EvLog "Created temp directory: /tmp/tmp.0"]
  ∧ fs Posix.noneSet !! "/tmp/tmp.0" = None
  ∧ fs (main Posix.ci Posix.noneSet).2 !! "/tmp/tmp.0" = Some Dir.
Proof. repeat split; vm_compute; reflexivity. Qed.

(** * Further properties of the script *)

(** ** Reversal and trimming *)

Lemma string_app_nil_r (a : string) : a +:+ "" = a.
Proof.
  induction a as [|x a IH]; [done|]. rewrite string_app_cons. by f_equal.
Qed.

Lemma rev_app_spec (a b : string) : String.rev_app a b = String.rev a +:+ b.
Proof.
  unfold String.rev. revert b. induction a as [|x a IH]; intros b; [done|].
  cbn [String.rev_app]. rewrite IH, (IH (String x "")).
  by rewrite string_app_assoc.
Qed.

Lemma rev_app_app (a b acc : string) :
  String.rev_app (a +:+ b) acc = String.rev_app b (String.rev_app a acc).
Proof.
  revert acc. induction a as [|x a IH]; intros acc; [done|].
  rewrite string_app_cons. cbn [String.rev_app]. apply IH.
Qed.

Lemma rev_snoc (a : string) (c : ascii) :
  String.rev (a +:+ String c "") = String c (String.rev a).
Proof. unfold String.rev. by rewrite rev_app_app. Qed.

Lemma rev_involutive (a : string) : String.rev (String.rev a) = a.
Proof.
  induction a as [|x a IH]; [done|].
  change (String.rev (String x a)) with (String.rev_app a (String x "")).
  by rewrite rev_app_spec, rev_snoc, IH.
Qed.

(** A pattern that does not match [p] does not match [p] with one more
    byte at its end either, unless that byte is in the pattern, after its
    first byte. *)
Lemma stripPrefix_snoc (c : ascii) (pat p : string) :
  p ≠ "" →
  mentionsLater c pat = false →
  stripPrefix pat p = None →
  stripPrefix pat (p +:+ String c "") = None.
Proof.
  revert p. induction pat as [|a pat IH]; intros p Hp Hc H; [done|].
  destruct p as [|b p]; [done|].
  rewrite string_app_cons. cbn [stripPrefix] in *.
  destruct (Ascii.eqb a b); [|done].
  cbn [mentionsLater] in Hc. destruct pat as [|a' pat]; [done|].
  cbn [mentions] in Hc. apply orb_false_elim in Hc as [Ha' Hc].
  destruct p as [|b' p].
  - change ("" +:+ String c "") with (String c "").
    cbn [stripPrefix]. by rewrite Ha'.
  - apply IH; done.
Qed.

Lemma dropFirst_snoc (c : ascii) (patterns : list string) (p : string) :
  p ≠ "" →
  Forall (λ pat, mentionsLater c pat = false) patterns →
  dropFirst patterns p = None →
  dropFirst patterns (p +:+ String c "") = None.
Proof.
  intros Hp Hall. induction Hall as [|pat patterns Hpat _ IH]; [done|].
  cbn [dropFirst foldr]. fold (dropFirst patterns p).
  fold (dropFirst patterns (p +:+ String c "")).
  destruct (stripPrefix pat p) eqn:H; [done|]. intros Hrest.
  by rewrite (stripPrefix_snoc c pat p), IH.
Qed.

Lemma dropAll_none (patterns : list string) (fuel : nat) (s : string) :
  dropFirst patterns s = None → dropAll patterns fuel s = s.
Proof. intros H. destruct fuel; [done|]. cbn [dropAll]. by rewrite H. Qed.

Lemma whiteSpace_LF_first :
  Forall (λ pat, mentionsLater (ascii_of_nat 10) pat = false) whiteSpace.
Proof. by repeat constructor. Qed.

(** A trailing newline is removed, and nothing else, from a string with no
    white space at either end. *)
Lemma trim_LF (p : string) :
  dropFirst whiteSpace p = None →
  dropFirst (String.rev <$> whiteSpace) (String.rev p) = None →
  trim (p +:+ LF) = p.
Proof.
  intros Hfront Hback. destruct p as [|c p]; [reflexivity|].
  assert (Hfront' : dropFirst whiteSpace (String c p +:+ LF) = None).
  { apply (dropFirst_snoc (ascii_of_nat 10) whiteSpace (String c p));
      [done | apply whiteSpace_LF_first | exact Hfront]. }
  unfold trim, trimStart. rewrite (dropAll_none _ _ _ Hfront').
  unfold trimEnd, LF. rewrite rev_snoc, string_app_length, Nat.add_1_r.
  cbn [dropAll].
  change (dropFirst (String.rev <$> whiteSpace)
            (String (ascii_of_nat 10) (String.rev (String c p))))
    with (Some (String.rev (String c p))).
  cbn beta iota. by rewrite (dropAll_none _ _ _ Hback), rev_involutive.
Qed.

(** X1: when the output of [mktemp], as a string, is a path followed by a
    newline, and the path has no white space at either end, the callback of
    [withTempDir] is handed exactly that path: the newline is dropped and
    nothing else. *)
Theorem tmpPath_is_printed_path os w p :
  stdout (os "mktemp" ["-d"] (fs w)).1 = Text (p +:+ LF) →
  dropFirst whiteSpace p = None →
  dropFirst (String.rev <$> whiteSpace) (String.rev p) = None →
  tmpPathOf os w = p
  ∧ ∀ callback,
      withTempDir os callback w =
        match callback p (created os w) with
        | (Normal _, w') => (Normal VUndefined, deleted os p w')
        | (Throw e, w') => (Throw e, w')
        end.
Proof.
  intros Hout H1 H2.
  assert (Hp : tmpPathOf os w = p).
  { unfold tmpPathOf. rewrite Hout. cbn [js_String]. by apply trim_LF. }
  split; [exact Hp|]. intros callback. by rewrite withTempDir_run, Hp.
Qed.

(** The reference system prints [/tmp/tmp.0] and a newline. *)
Lemma tmpPath_is_printed_path_witness :
  tmpPathOf Posix.ci Posix.bothSet = "/tmp/tmp.0".
Proof.
  apply (tmpPath_is_printed_path Posix.ci Posix.bothSet "/tmp/tmp.0");
    vm_compute; reflexivity.
Defined.

(** X2: [withTempDir] does not check that [mktemp] gave a path.  When
    [spawnSync] reports no buffer as the output of [mktemp], the script goes
    on with the name of what is reported, [null] or [undefined], as the
    path: the callback is handed that name, and once it returns [rm -R] is
    spawned on it. *)
Theorem withTempDir_without_mktemp os callback w :
  let absent := stdout (os "mktemp" ["-d"] (fs w)).1 in
  absent = Null ∨ absent = Undefined →
  let name := match absent with Undefined => "undefined" | _ => "null" end in
  tmpPathOf os w = name
  ∧ trace (created os w) =
      trace w ++ [EvSpawn "mktemp" ["-d"]; EvLog ("Created temp directory: " +:+ name)]
  ∧ withTempDir os callback w =
      match callback name (created os w) with
      | (Normal _, w') => (Normal VUndefined, deleted os name w')
      | (Throw e, w') => (Throw e, w')
      end
  ∧ ∀ w', trace (deleted os name w') =
      trace w' ++ [EvSpawn "rm" ["-R"; name]; EvLog ("Deleted temp directory: " +:+ name)].
Proof.
  intros absent Habsent name.
  assert (Hp : tmpPathOf os w = name).
  { unfold tmpPathOf, name. fold absent. by destruct Habsent as [-> | ->]. }
  split; [exact Hp|]. split; [|split].
  - unfold created, spawned. cbn [trace record with_fs].
    by rewrite Hp, <- app_assoc.
  - by rewrite withTempDir_run, Hp.
  - intros w'. unfold deleted, spawned. cbn [trace record with_fs].
    by rewrite <- app_assoc.
Qed.

(** On a machine without tools that reports [undefined], a returning
    callback. *)
Lemma withTempDir_without_mktemp_witness :
  trace (withTempDir (Posix.noTools Undefined) Posix.returns42 Posix.noneSet).2 =
    [ EvSpawn "mktemp" ["-d"]; EvLog "Created temp directory: undefined";
      EvSpawn "rm" ["-R"; "undefined"]; EvLog "Deleted temp directory: undefined" ].
Proof.
  destruct (withTempDir_without_mktemp (Posix.noTools Undefined)
              Posix.returns42 Posix.noneSet)
    as (_ & Hc & Hrun & Hd); [right; reflexivity|].
  rewrite Hrun. cbn. reflexivity.
Defined.

(** X3: when the callback returns, having only added events, the events of
    [withTempDir] are the creation of the directory and its message, the
    events of the callback, then [rm -R] on the path the callback was
    handed and its message. *)
Theorem withTempDir_brackets_callback os callback w v w' evs :
  callback (tmpPathOf os w) (created os w) = (Normal v, w') →
  trace w' = trace (created os w) ++ evs →
  trace (withTempDir os callback w).2 =
    trace w
      ++ [ EvSpawn "mktemp" ["-d"];
           EvLog ("Created temp directory: " +:+ tmpPathOf os w) ]
      ++ evs
      ++ [ EvSpawn "rm" ["-R"; tmpPathOf os w];
           EvLog ("Deleted temp directory: " +:+ tmpPathOf os w) ].
Proof.
  intros Hcb Hevs. rewrite withTempDir_run, Hcb. cbn [snd].
  unfold deleted, spawned. cbn [trace record with_fs]. rewrite Hevs.
  unfold created, spawned. cbn [trace record with_fs].
  by rewrite <- !app_assoc.
Qed.

(** One artifact deployed inside an outer directory. *)
Lemma withTempDir_brackets_callback_witness :
  length (trace (withTempDir Posix.ci
                   (λ _, mavenDeploySnapshotFromBazel Posix.ci "s.xml" "closure-compiler")
                   Posix.bothSet).2) = 13.
Proof.
  rewrite (withTempDir_brackets_callback Posix.ci
             (λ _, mavenDeploySnapshotFromBazel Posix.ci "s.xml" "closure-compiler")
             Posix.bothSet VUndefined
             (deployed Posix.ci "s.xml" "closure-compiler"
                (created Posix.ci Posix.bothSet))
             (deployEvents "s.xml" "closure-compiler"
                (tmpPathOf Posix.ci (created Posix.ci Posix.bothSet))
                (jarArgsOf Posix.ci "closure-compiler" (created Posix.ci Posix.bothSet)))).
  - reflexivity.
  - vm_compute. reflexivity.
  - vm_compute. reflexivity.
Defined.

(** ** Joining lines *)

Lemma lines_cons2 (x y : string) (l : list string) :
  lines (x :: y :: l) = x +:+ LF +:+ lines (y :: l).
Proof. reflexivity. Qed.



(** X5: the length of the lines of a non-empty list is the sum of the
    lengths of its strings plus one newline per string after the first. *)
Theorem lines_length (x : string) (xs : list string) :
  String.length (lines (x :: xs)) = totalLength (x :: xs) + length xs.
Proof.
  unfold totalLength. revert x. induction xs as [|y xs IH]; intros x.
  - cbn. lia.
  - rewrite lines_cons2, !string_app_length, IH. cbn. lia.
Qed.

(** ** The settings document *)

(** X6: the settings document is a fixed text around the two credentials,
    which are copied in as they are; its length is that of the fixed text,
    390 characters, plus the lengths of the credentials. *)
Theorem settingsXml_verbatim (username password : string) :
  settingsXml username password =
    settingsHead +:+ username +:+ settingsMid +:+ password +:+ settingsTail
  ∧ String.length (settingsXml username password) =
      390 + String.length username + String.length password.
Proof.
  assert (H : settingsXml username password =
    settingsHead +:+ username +:+ settingsMid +:+ password +:+ settingsTail).
  { unfold settingsXml, lines, join. cbn [String.concat].
    rewrite !string_app_assoc. reflexivity. }
  split; [exact H|].
  rewrite H, !string_app_length.
  change (String.length settingsHead) with 312.
  change (String.length settingsMid) with 28.
  change (String.length settingsTail) with 50. lia.
Qed.

(** X7: nothing in a credential is escaped, so the document does not
    determine the credentials: a user name that holds the text found
    between the two credentials gives the document of a shorter user name
    with a longer password. *)
Theorem settingsXml_not_injective (a b c : string) :
  settingsXml (a +:+ settingsMid +:+ b) c = settingsXml a (b +:+ settingsMid +:+ c)
  ∧ a +:+ settingsMid +:+ b ≠ a.
Proof.
  split.
  - rewrite !(proj1 (settingsXml_verbatim _ _)). by rewrite !string_app_assoc.
  - intros H. apply (f_equal String.length) in H.
    rewrite !string_app_length in H.
    change (String.length settingsMid) with 28 in H. lia.
Qed.

(** ** Errors of the lookup *)

(** X8: the error of [getEnvOrThrow] tells the variable apart: two lookups
    that throw the same error looked up the same name.  A lookup, throwing
    or not, leaves the world as it is. *)
Theorem getEnvOrThrow_error_names_variable name1 name2 w1 w2 e w1' w2' :
  getEnvOrThrow name1 w1 = (Throw e, w1') →
  getEnvOrThrow name2 w2 = (Throw e, w2') →
  name1 = name2 ∧ w1' = w1 ∧ w2' = w2.
Proof.
  rewrite !getEnvOrThrow_run. intros H1 H2.
  destruct (env w1 !! name1); [discriminate H1|].
  destruct (env w2 !! name2); [discriminate H2|].
  destruct (bool_decide (name1 ∈ objectPrototypeKeys)); [discriminate H1|].
  destruct (bool_decide (name2 ∈ objectPrototypeKeys)); [discriminate H2|].
  injection H1 as <- <-. injection H2 as H2 <-.
  split; [|done]. by apply (inj (String.app _)) in H2.
Qed.

Lemma getEnvOrThrow_error_names_variable_witness :
  "SONATYPE_USERNAME" = "SONATYPE_USERNAME"
  ∧ Posix.noneSet = Posix.noneSet ∧ Posix.passwordOnly = Posix.passwordOnly.
Proof.
  apply (getEnvOrThrow_error_names_variable
           "SONATYPE_USERNAME" "SONATYPE_USERNAME" Posix.noneSet Posix.passwordOnly
           (JsError "Environment variable not set: SONATYPE_USERNAME"));
    vm_compute; reflexivity.
Defined.

(** ** The outcomes of a run *)

Lemma loopEvents_quiet os settingsPath ids w :
  Forall (λ e, is_write e = false) (loopEvents os settingsPath ids w).
Proof.
  revert w. induction ids as [|id ids IH]; intros w; cbn [loopEvents].
  - constructor.
  - apply Forall_app. split; [|apply IH]. unfold deployEvents.
    by repeat constructor.
Qed.

Lemma loopEvents_settings os settingsPath ids w :
  Forall (λ e, ∀ args, e = EvSpawn "mvn" args →
               args !! 1 = Some ("--settings=" +:+ settingsPath))
    (loopEvents os settingsPath ids w).
Proof.
  revert w. induction ids as [|id ids IH]; intros w; cbn [loopEvents].
  - constructor.
  - apply Forall_app. split; [|apply IH]. unfold deployEvents.
    repeat constructor; intros args H; try discriminate H.
    by injection H as <-.
Qed.

(** The events a run of [main] adds, case by case. *)
Lemma main_events os w :
  let tmpPath := tmpPathOf os w in
  let settingsPath := tmpPath +:+ "/settings.xml" in
  let opening :=
    [EvSpawn "mktemp" ["-d"]; EvLog ("Created temp directory: " +:+ tmpPath)] in
  trace (main os w).2 = trace w ++
    match env w !! "SONATYPE_USERNAME", env w !! "SONATYPE_PASSWORD" with
    | Some u, Some p =>
        match fs (created os w) !! settingsPath,
              openError w (fs (created os w)) settingsPath with
        | None, None =>
            opening ++ [EvWriteFile settingsPath (settingsXml u p)]
              ++ loopEvents os settingsPath artifactIds
                   (with_fs (<[settingsPath := File (settingsXml u p)]> (fs (created os w)))
                      (record (EvWriteFile settingsPath (settingsXml u p)) (created os w)))
              ++ [ EvSpawn "rm" ["-R"; tmpPath];
                   EvLog ("Deleted temp directory: " +:+ tmpPath) ]
        | _, _ => opening ++ [EvWriteFile settingsPath (settingsXml u p)]
        end
    | _, _ => opening
    end.
Proof.
  cbn zeta. rewrite main_run. cbn zeta.
  destruct (env w !! "SONATYPE_USERNAME") as [u|];
    [destruct (env w !! "SONATYPE_PASSWORD") as [p|];
       [destruct (fs (created os w) !! _) as [x|];
          [|destruct (openError w _ _) as [code|]]|]|];
    cbn [snd]; unfold deleted, spawned; cbn [trace record with_fs];
    rewrite ?trace_loop; cbn [trace record with_fs];
    unfold created, spawned; cbn [trace record with_fs];
    by rewrite <- ?app_assoc.
Qed.



(** X10: a run of [main] that throws has spawned [mktemp] once and nothing
    else: no bundle is extracted, nothing is deployed, and [rm] is never
    spawned, so the directory is left behind whatever the error. *)
Theorem main_failure_spawns_only_mktemp os w e :
  (main os w).1 = Throw e →
  ∃ evs,
    trace (main os w).2 = trace w ++ evs
    ∧ filter (λ ev, is_spawn_of "mktemp" ev) evs = [EvSpawn "mktemp" ["-d"]]
    ∧ Forall (λ ev, is_spawn_of "unzip" ev = false
                    ∧ is_spawn_of "mvn" ev = false
                    ∧ is_spawn_of "rm" ev = false) evs.
Proof.
  intros Hthrow. eexists. split; [apply main_events|]. cbn zeta.
  rewrite main_run in Hthrow. cbn zeta in Hthrow.
  destruct (env w !! "SONATYPE_USERNAME") as [u|];
    [destruct (env w !! "SONATYPE_PASSWORD") as [p|];
       [destruct (fs (created os w) !! _) as [x|];
          [|destruct (openError w _ _) as [code|]]|]|];
    try discriminate Hthrow.
  all: split; [reflexivity | by repeat constructor].
Qed.

Lemma main_failure_spawns_only_mktemp_witness :
  ∃ evs,
    trace (main Posix.noTmp Posix.staleSettings).2 = trace Posix.staleSettings ++ evs
    ∧ Forall (λ ev, is_spawn_of "rm" ev = false) evs.
Proof.
  destruct (main_failure_spawns_only_mktemp Posix.noTmp Posix.staleSettings
              (SystemError "EEXIST" "open" "/settings.xml"))
    as (evs & Htrace & _ & Hall).
  - vm_compute. reflexivity.
  - exists evs. split; [exact Htrace|].
    eapply Forall_impl; [exact Hall|]. intros ev (_ & _ & H). exact H.
Defined.

Lemma filter_none {A : Type} (P : A → Prop) `{!∀ x, Decision (P x)} (l : list A) :
  Forall (λ x, ¬ P x) l → filter P l = [].
Proof.
  induction 1 as [|x l Hx _ IH]; [done|].
  by rewrite filter_cons, decide_False.
Qed.

(** X11: in every run, returning or not, the script itself writes at most
    one file: the settings document, at [settings.xml] in the directory of
    the run, holding the two credentials of the environment. *)
Theorem main_writes_settings_only os w :
  ∃ evs,
    trace (main os w).2 = trace w ++ evs
    ∧ (filter (λ ev, is_write ev) evs = []
       ∨ ∃ u p,
           env w !! "SONATYPE_USERNAME" = Some u
           ∧ env w !! "SONATYPE_PASSWORD" = Some p
           ∧ filter (λ ev, is_write ev) evs =
               [EvWriteFile (tmpPathOf os w +:+ "/settings.xml") (settingsXml u p)]).
Proof.
  eexists. split; [apply main_events|]. cbn zeta.
  destruct (env w !! "SONATYPE_USERNAME") as [u|];
    [destruct (env w !! "SONATYPE_PASSWORD") as [p|];
       [destruct (fs (created os w) !! _) as [x|];
          [|destruct (openError w _ _) as [code|]]|]|].
  - right. exists u, p. by repeat split.
  - right. exists u, p. by repeat split.
  - right. exists u, p. split; [done|]. split; [done|].
    rewrite !filter_app.
    rewrite (filter_none _ (loopEvents _ _ _ _)).
    + reflexivity.
    + eapply Forall_impl; [apply loopEvents_quiet|].
      intros ev H Hw. rewrite H in Hw. exact Hw.
  - left. reflexivity.
  - left. reflexivity.
Qed.

(** X12: in every run, each [mvn] that is spawned is told, as its second
    argument, to read its settings at [settings.xml] in the directory of
    the run, the path of the one file the script writes. *)
Theorem main_deploys_with_written_settings os w :
  ∃ evs,
    trace (main os w).2 = trace w ++ evs
    ∧ Forall (λ ev, ∀ args, ev = EvSpawn "mvn" args →
                args !! 1 = Some ("--settings=" +:+ tmpPathOf os w +:+ "/settings.xml"))
        evs.
Proof.
  eexists. split; [apply main_events|]. cbn zeta.
  destruct (env w !! "SONATYPE_USERNAME") as [u|];
    [destruct (env w !! "SONATYPE_PASSWORD") as [p|];
       [destruct (fs (created os w) !! _) as [x|];
          [|destruct (openError w _ _) as [code|]]|]|].
  3: { rewrite !Forall_app. split; [|split; [|split]].
       - repeat constructor; intros args H; discriminate H.
       - repeat constructor; intros args H; discriminate H.
       - apply loopEvents_settings.
       - repeat constructor; intros args H; discriminate H. }
  all: repeat constructor; intros args H; discriminate H.
Qed.

(** ** The loop over the artifacts *)

(** X13: deploying the artifacts of two lists put together is deploying
    those of the first list, then those of the second in the world the
    first left; neither part can throw, and an empty list changes
    nothing. *)
Theorem deployAll_app os settingsPath (ids1 ids2 : list string) w :
  deployAll os settingsPath (ids1 ++ ids2) w =
    deployAll os settingsPath ids2 (deployAll os settingsPath ids1 w).2
  ∧ (deployAll os settingsPath ids1 w).1 = Normal tt
  ∧ deployAll os settingsPath [] w = (Normal tt, w)
  ∧ trace (deployAll os settingsPath (ids1 ++ ids2) w).2 =
      trace w ++ loopEvents os settingsPath ids1 w
        ++ loopEvents os settingsPath ids2 (deployAll os settingsPath ids1 w).2.
Proof.
  rewrite !deployAll_run. cbn [fst snd]. rewrite foldl_app.
  repeat split. by rewrite !trace_loop, <- app_assoc.
Qed.

(** X14: an artifact whose bundle leaves none of the three jars in the
    directory is deployed all the same: [mvn] is spawned, with the six
    fixed arguments and no classifier argument. *)
Theorem pom_only_artifact_is_deployed os settingsPath artifactId w :
  let tmpPath := tmpPathOf os w in
  let base := tmpPath +:+ "/" +:+ artifactId +:+ "-1.0-SNAPSHOT" in
  (∀ suffix, suffix ∈ ["" ; "-sources"; "-javadoc"] →
     fs (extracted os artifactId w) !! (base +:+ suffix +:+ ".jar") = None) →
  ∃ evs,
    trace (mavenDeploySnapshotFromBazel os settingsPath artifactId w).2 = trace w ++ evs
    ∧ filter (λ ev, is_spawn_of "mvn" ev) evs =
        [ EvSpawn "mvn"
            [ "deploy:deploy-file";
              "--settings=" +:+ settingsPath;
              "-DgeneratePom=false";
              "-DrepositoryId=snapshot-repo-id";
              "-Durl=https://oss.sonatype.org/content/repositories/snapshots/";
              "-DpomFile=" +:+ tmpPath +:+ "/pom.xml" ] ].
Proof.
  intros tmpPath base Hnone.
  rewrite mavenDeploySnapshotFromBazel_run. cbn [snd]. rewrite trace_deployed.
  eexists. split; [reflexivity|].
  assert (Hargs : jarArgsOf os artifactId w = []).
  { unfold jarArgsOf, JAR_SUFFIX_BY_MVN_ARG. fold tmpPath. fold base.
    cbn [fmap list_fmap fst snd].
    rewrite !filter_cons, filter_nil. cbn [fst snd].
    rewrite !decide_False; [done|..];
      rewrite Hnone; [by intros [? ?] | set_solver ..]. }
  rewrite Hargs. reflexivity.
Qed.

(** The last artifact of the list has no bundle on the reference system. *)
Lemma pom_only_artifact_is_deployed_witness :
  ∃ evs,
    trace (mavenDeploySnapshotFromBazel Posix.ci "/tmp/tmp.0/settings.xml"
             "closure-compiler-parent" Posix.bothSet).2 = trace Posix.bothSet ++ evs
    ∧ length (filter (λ ev, is_spawn_of "mvn" ev) evs) = 1.
Proof.
  destruct (pom_only_artifact_is_deployed Posix.ci "/tmp/tmp.0/settings.xml"
              "closure-compiler-parent" Posix.bothSet) as (evs & Htrace & Hmvn).
  - intros suffix Hin. rewrite !elem_of_cons in Hin. rewrite elem_of_nil in Hin.
    destruct Hin as [->|[->|[->|[]]]]; vm_compute; reflexivity.
  - exists evs. split; [exact Htrace|]. by rewrite Hmvn.
Defined.
